(** * dirk: the beacon-attestation signing pipeline

    A shallow embedding of [rules/service.go] (the data handed to rule
    providers and the verdict constants) and of
    [services/signer/standard/signbeaconattestation.go] (the
    [SignBeaconAttestation] operation), followed by the properties of the
    pipeline: which outcome each exit produces, what accompanies it, which
    collaborators were called on the way and with what. *)

From Stdlib Require Import ZArith List String Bool Lia Permutation.
From Stdlib Require Import Strings.Byte.
Import ListNotations.

Local Open Scope Z_scope.
Local Open Scope string_scope.

(** ** Go values *)

(** A Go [[]byte].  The nil slice and the empty, allocated slice are two
    values and [x == nil] tells them apart: [None] is nil, [Some []] is
    [[]byte{}]. *)
Definition bytes : Type := option (list byte).

(** [uint64] fields are only ever copied by this code. *)
Definition uint64 : Type := Z.

(** An [error] value: [None] is the nil error. *)
Definition error : Type := option string.

(** A [time.Time], as nanoseconds. *)
Definition Time : Type := Z.

Definition is_nil {A : Type} (p : option A) : bool :=
  match p with None => true | Some _ => false end.

(** [len(b) > 0] *)
Definition non_empty (b : bytes) : Prop :=
  exists x xs, b = Some (x :: xs).

(** ** package rules *)

Module rules.

(** Checkpoint is part of SignBeaconAttestationData. *)
Record Checkpoint : Type := {
  Epoch : uint64;
  Root : bytes
}.

(** SignBeaconAttestationData is passed to 'OnSignBeaconAttestation'
    rules.  [Source] and [Target] are pointers. *)
Record SignBeaconAttestationData : Type := {
  Domain : bytes;
  Slot : uint64;
  CommitteeIndex : uint64;
  BeaconBlockRoot : bytes;
  Source : option Checkpoint;
  Target : option Checkpoint
}.

(** [type Result int] *)
Definition Result : Type := Z.

(** The constant block [UNKNOWN Result = iota; APPROVED; DENIED; FAILED]:
    the n-th line of the block takes the value n. *)
Definition iota (line : nat) : Result := Z.of_nat line.

Definition UNKNOWN : Result := iota 0.
Definition APPROVED : Result := iota 1.
Definition DENIED : Result := iota 2.
Definition FAILED : Result := iota 3.

(** What [var r Result] holds: the zero value of an integer type. *)
Definition zero_value : Result := 0.

(** The four named verdicts. *)
Definition named (r : Result) : Prop :=
  r = UNKNOWN \/ r = APPROVED \/ r = DENIED \/ r = FAILED.

(** Modelled from the spec: the rule engine's aggregation (section 4.2,
    "collect each provider's Verdict; reduce by taking the maximum under
    the severity order"); the engine itself is not among the sources.  The
    running maximum starts from the zero value of [Result]. *)
Definition reduce_max (verdicts : list Result) : Result :=
  fold_right Z.max zero_value verdicts.

End rules.

(** ** package core *)

Module core.

(** Modelled from the spec: the pipeline-level Outcome of section 3,
    "SUCCEEDED (signature attached), DENIED (policy or input rejection, no
    signature), FAILED (internal/defect condition, no signature)".  Package
    [core] is not among the sources; the signer names [core.ResultSucceeded],
    [core.ResultDenied] and [core.ResultFailed]. *)
Inductive Result : Type :=
| ResultSucceeded
| ResultDenied
| ResultFailed.

Definition Result_eqb (a b : Result) : bool :=
  match a, b with
  | ResultSucceeded, ResultSucceeded => true
  | ResultDenied, ResultDenied => true
  | ResultFailed, ResultFailed => true
  | _, _ => false
  end.

End core.

(** ** package checker *)

Module checker.

(** Modelled from the spec: Credentials, "request identifier (for
    tracing), client identity string"; the signer reads
    [credentials.RequestID] and [credentials.Client]. *)
Record Credentials : Type := {
  RequestID : string;
  Client : string
}.

End checker.

(** ** package ruler *)

Module ruler.

(** Modelled from the spec: one action per pipeline (section 2), matching
    the methods of [rules.Service].  The signer names
    [ruler.ActionSignBeaconAttestation]. *)
Inductive Action : Type :=
| ActionSign
| ActionSignBeaconAttestation
| ActionSignBeaconProposal
| ActionAccessAccount
| ActionLockWallet
| ActionUnlockWallet
| ActionLockAccount
| ActionUnlockAccount.

End ruler.

(** ** package standard (services/signer/standard) *)

Module standard.

(** Checkpoint is a copy of the Ethereum 2 Checkpoint struct with SSZ size
    information. *)
Record Checkpoint : Type := {
  Epoch : uint64;
  Root : bytes
}.

(** BeaconAttestation is a copy of the Ethereum 2 BeaconAttestation struct
    with SSZ size information. *)
Record BeaconAttestation : Type := {
  Slot : uint64;
  CommitteeIndex : uint64;
  BeaconBlockRoot : bytes;
  Source : option Checkpoint;
  Target : option Checkpoint
}.

(** The wallet and account handles [preCheck] hands back.  The signer calls
    [wallet.Name()], [account.Name()] and [account.PublicKey().Marshal()] on
    them and passes the account on to [signRoot]. *)
Record Wallet : Type := {
  wallet_Name : string
}.

Record Account : Type := {
  account_Name : string;
  account_PublicKey : bytes
}.

(** zerolog levels used by the operation. *)
Inductive Level : Type := Trace | Debug | Warn | Error.

(** Everything the operation does besides returning: one event per call
    that leaves the function, in program order, with the arguments passed
    and the answer received. *)
Inductive Event : Type :=
| EvLog (lvl : Level) (msg : string)
| EvPreCheck (credentials : checker.Credentials) (accountName : string)
    (pubKey : bytes) (action : ruler.Action)
    (wallet : Wallet) (account : Account) (checkRes : core.Result)
| EvRunRules (credentials : checker.Credentials) (action : ruler.Action)
    (walletName accountName : string) (pubKey : bytes)
    (data : rules.SignBeaconAttestationData) (result : rules.Result)
| EvGenerateSigningRoot (attestation : BeaconAttestation) (domain : bytes)
    (signingRoot : list byte) (err : error)
| EvSignRoot (account : Account) (root : bytes)
    (signature : bytes) (err : error)
| EvSignCompleted (started : Time) (request : string) (result : core.Result).

Definition is_SignCompleted (e : Event) : bool :=
  match e with EvSignCompleted _ _ _ => true | _ => false end.

Definition is_RunRules (e : Event) : bool :=
  match e with EvRunRules _ _ _ _ _ _ _ => true | _ => false end.

Definition is_GenerateSigningRoot (e : Event) : bool :=
  match e with EvGenerateSigningRoot _ _ _ _ => true | _ => false end.

Definition is_SignRoot (e : Event) : bool :=
  match e with EvSignRoot _ _ _ _ => true | _ => false end.

Section Pipeline.

(** [W] is the state behind the key store, the rule providers and the
    clock; [M] is the state behind the metrics collaborator. *)
Context {W M : Type}.

(** The collaborators of the operation; none of their bodies is among the
    sources, so each is taken as it is called: the arguments it is given,
    the answer it gives, and what it does to the state behind it.  The
    [context.Context] argument is threaded through unchanged by the
    operation and is left out.  [preCheck]'s wallet and account are only
    used after it reported [core.ResultSucceeded], and are then usable
    handles.  [RunRules] is handed the request data to read; it does not
    write through the pointer. *)
Record Service : Type := {
  time_Now : W -> Time;
  preCheck :
    checker.Credentials -> string -> bytes -> ruler.Action ->
    W -> (Wallet * Account * core.Result) * W;
  ruler_RunRules :
    checker.Credentials -> ruler.Action -> string -> string -> bytes ->
    rules.SignBeaconAttestationData -> W -> rules.Result * W;
  generateSigningRootFromData :
    BeaconAttestation -> bytes -> list byte * error;
  signRoot : Account -> bytes -> W -> (bytes * error) * W;
  monitor_SignCompleted : Time -> string -> core.Result -> M -> M
}.

(** A computation reads and updates both states and reports the calls it
    made. *)
Definition Prog (A : Type) : Type := W * M -> A * (W * M) * list Event.

Definition ret {A : Type} (a : A) : Prog A :=
  fun st => (a, st, []).

Definition bind {A B : Type} (c : Prog A) (k : A -> Prog B) : Prog B :=
  fun st =>
    let '(a, st1, t1) := c st in
    let '(b, st2, t2) := k a st1 in
    (b, st2, (t1 ++ t2)%list).

Definition emit (e : Event) : Prog unit :=
  fun st => (tt, st, [e]).

(** A call into the key store, rule engine or signer: it runs on [W],
    and [e] files the answer. *)
Definition call {A : Type} (f : W -> A * W) (e : A -> Event) : Prog A :=
  fun st =>
    let '(a, w) := f (fst st) in
    (a, (w, snd st), [e a]).

(** A call that touches no state. *)
Definition call_pure {A : Type} (a : A) (e : A -> Event) : Prog A :=
  fun st => (a, st, [e a]).

Definition log (lvl : Level) (msg : string) : Prog unit :=
  emit (EvLog lvl msg).

Notation "x <- c ;; k" := (bind c (fun x => k))
  (at level 100, c at next level, right associativity).
Notation "' pat <- c ;; k" :=
  (bind c (fun x => match x with pat => k end))
  (at level 100, pat pattern, c at next level, right associativity).
Notation "c ;; k" := (bind c (fun _ => k))
  (at level 100, right associativity).

Variable s : Service.

(** [started := time.Now()] *)
Definition now : Prog Time :=
  fun st => (time_Now s (fst st), st, []).

(** [s.monitor.SignCompleted(started, request, result)] *)
Definition SignCompleted (started : Time) (request : string)
    (result : core.Result) : Prog unit :=
  fun st =>
    (tt, (fst st, monitor_SignCompleted s started request result (snd st)),
     [EvSignCompleted started request result]).

(** The block every input check runs on a missing field. *)
Definition deny (started : Time) (msg : string)
    : Prog (core.Result * bytes) :=
  log Warn msg ;;
  SignCompleted started "attestation" core.ResultDenied ;;
  ret (core.ResultDenied, None).

(** The block of the error exits. *)
Definition fail (started : Time) (msg : string)
    : Prog (core.Result * bytes) :=
  log Error msg ;;
  SignCompleted started "attestation" core.ResultFailed ;;
  ret (core.ResultFailed, None).

Notation "'if_nil' e 'then' r 'else' x 'in' k" :=
  (match e with None => r | Some x => k end)
  (at level 100, x name, right associativity).

(** SignBeaconAttestation signs a attestation for a beacon block. *)
Definition SignBeaconAttestation
    (credentials : option checker.Credentials)
    (accountName : string)
    (pubKey : bytes)
    (data : option rules.SignBeaconAttestationData)
    : Prog (core.Result * bytes) :=
  started <- now ;;
  if_nil credentials then
    (log Error "No credentials supplied" ;;
     ret (core.ResultFailed, None))
  else credentials in
  log Trace "Signing" ;;
  (* Check input. *)
  if_nil data then deny started "Request missing data"
  else data in
  if_nil rules.BeaconBlockRoot data
  then deny started "Request missing beacon block root"
  else _blockRoot in
  if_nil rules.Domain data
  then deny started "Request missing domain"
  else _domain in
  if_nil rules.Source data
  then deny started "Request missing source"
  else source in
  if_nil rules.Root source
  then deny started "Request missing source root"
  else _sourceRoot in
  if_nil rules.Target data
  then deny started "Request missing target"
  else target in
  if_nil rules.Root target
  then deny started "Request missing target root"
  else _targetRoot in
  '(wallet, account, checkRes) <-
    call (preCheck s credentials accountName pubKey
            ruler.ActionSignBeaconAttestation)
         (fun '(wallet, account, checkRes) =>
            EvPreCheck credentials accountName pubKey
              ruler.ActionSignBeaconAttestation wallet account checkRes) ;;
  if negb (core.Result_eqb checkRes core.ResultSucceeded) then
    SignCompleted started "attestation" checkRes ;;
    ret (checkRes, None)
  else
  (* accountName is rebound to wallet.Name() + "/" + account.Name() here;
     from this point on it only feeds the logger. *)
  (* Confirm approval via rules. *)
  result <-
    call (ruler_RunRules s credentials ruler.ActionSignBeaconAttestation
            (wallet_Name wallet) (account_Name account)
            (account_PublicKey account) data)
         (EvRunRules credentials ruler.ActionSignBeaconAttestation
            (wallet_Name wallet) (account_Name account)
            (account_PublicKey account) data) ;;
  if (result =? rules.DENIED)%Z then
    log Debug "Denied by rules" ;;
    SignCompleted started "attestation" core.ResultDenied ;;
    ret (core.ResultDenied, None)
  else if (result =? rules.FAILED)%Z then
    fail started "Rules check failed"
  else
  (* Create a local copy of the data; we need ssz size information to
     calculate the correct root. *)
  let attestation :=
    {| Slot := rules.Slot data;
       CommitteeIndex := rules.CommitteeIndex data;
       BeaconBlockRoot := rules.BeaconBlockRoot data;
       Source := Some {| Epoch := rules.Epoch source;
                         Root := rules.Root source |};
       Target := Some {| Epoch := rules.Epoch target;
                         Root := rules.Root target |} |} in
  (* Sign it. *)
  '(signingRoot, err) <-
    call_pure
      (generateSigningRootFromData s attestation (rules.Domain data))
      (fun '(signingRoot, err) =>
         EvGenerateSigningRoot attestation (rules.Domain data)
           signingRoot err) ;;
  if negb (is_nil err) then fail started "Failed to generate signing root"
  else
  '(signature, err) <-
    call (signRoot s account (Some signingRoot))
         (fun '(signature, err) =>
            EvSignRoot account (Some signingRoot) signature err) ;;
  if negb (is_nil err) then fail started "Failed to sign"
  else
  log Trace "Success" ;;
  SignCompleted started "attestation" core.ResultSucceeded ;;
  ret (core.ResultSucceeded, signature).

End Pipeline.

Arguments Service : clear implicits.
Arguments Prog : clear implicits.

(** *** Reading a finished run *)

Section Reading.

Context {W M : Type}.

Definition Run : Type := (core.Result * bytes) * (W * M) * list Event.

(** What the caller gets back. *)
Definition returned (r : Run) : core.Result * bytes := fst (fst r).
Definition outcome (r : Run) : core.Result := fst (returned r).
Definition signature_of (r : Run) : bytes := snd (returned r).

(** What the collaborators are left with, and what they were asked. *)
Definition world_after (r : Run) : W := fst (snd (fst r)).
Definition metrics_after (r : Run) : M := snd (snd (fst r)).
Definition calls (r : Run) : list Event := snd r.

(** The metrics records of a run, in order. *)
Definition metered (r : Run) : list Event :=
  filter is_SignCompleted (calls r).

End Reading.

(** *** Conditions on requests and collaborators *)

(** The attestation data record is absent, or one of its domain,
    beacon-block root, source, source root, target or target root is. *)
Definition incomplete (data : option rules.SignBeaconAttestationData)
    : Prop :=
  match data with
  | None => True
  | Some d =>
      rules.Domain d = None \/
      rules.BeaconBlockRoot d = None \/
      rules.Source d = None \/
      (exists c, rules.Source d = Some c /\ rules.Root c = None) \/
      rules.Target d = None \/
      (exists c, rules.Target d = Some c /\ rules.Root c = None)
  end.

(** [len(b) == 0]: the nil slice and the allocated slice without bytes. *)
Definition is_empty (b : bytes) : bool :=
  match b with
  | None | Some [] => true
  | Some (_ :: _) => false
  end.

(** Modelled from the spec: the invariant of section 3, "every
    root/checkpoint field must be present (non-empty)".  The data record is
    absent, or one of its domain, beacon-block root, source, source root,
    target or target root is absent or empty.  The operation itself tests
    [incomplete]. *)
Definition lacking (data : option rules.SignBeaconAttestationData) : Prop :=
  match data with
  | None => True
  | Some d =>
      is_empty (rules.Domain d) = true \/
      is_empty (rules.BeaconBlockRoot d) = true \/
      rules.Source d = None \/
      (exists c, rules.Source d = Some c /\ is_empty (rules.Root c) = true) \/
      rules.Target d = None \/
      (exists c, rules.Target d = Some c /\ is_empty (rules.Root c) = true)
  end.

(** The same service behind another metrics collaborator: the clock, the
    resolver, the ruler, the root derivation and the signer are kept. *)
Definition with_monitor {W M M' : Type} (s : Service W M)
    (monitor : Time -> string -> core.Result -> M' -> M') : Service W M' :=
  {| time_Now := time_Now s;
     preCheck := preCheck s;
     ruler_RunRules := ruler_RunRules s;
     generateSigningRootFromData := generateSigningRootFromData s;
     signRoot := signRoot s;
     monitor_SignCompleted := monitor |}.

(** *** A metrics collaborator that fails

    [SignCompleted] has no result, so the one way it can fail is to panic.
    [SignBeaconAttestation] defers nothing and recovers nothing: a panic
    raised by [s.monitor.SignCompleted] unwinds through it and the call
    returns no pair.  Every call of [SignCompleted] is the statement right
    before a [return], so the unwinding skips that [return] and nothing
    else. *)

(** A metrics collaborator over its own state; [None] is a panic. *)
Definition Monitor (M : Type) : Type :=
  Time -> string -> core.Result -> M -> option M.

(** The collaborator as the operation calls it; once it has panicked the
    stack is unwinding and it is not entered again. *)
Definition unwinding {M : Type} (monitor : Monitor M)
    : Time -> string -> core.Result -> option M -> option M :=
  fun started request result m =>
    match m with
    | Some m => monitor started request result m
    | None => None
    end.

(** The service [s] behind the metrics collaborator [monitor]. *)
Definition monitored {W M M' : Type} (s : Service W M)
    (monitor : Monitor M') : Service W (option M') :=
  with_monitor s (unwinding monitor).

(** What the caller of the operation gets: the returned pair, or nothing
    when the metrics collaborator panicked. *)
Definition call_result {W M : Type} (r : @Run W (option M))
    : option (core.Result * bytes) :=
  match metrics_after r with
  | Some _ => Some (returned r)
  | None => None
  end.

(** *** Exit points

    The [return] statements of [SignBeaconAttestation], in source order:
    line 57, lines 71 to 101 (one per input check, told apart by the
    message logged), line 107, line 118, line 122, line 145, line 151 and
    line 156. *)
Inductive ExitPoint : Type :=
| NoCredentials
| MissingInput (msg : string)
| CheckNotSucceeded (checkRes : core.Result)
| RulesDenied
| RulesFailed
| RootFailed
| SignFailed
| Signed (signature : bytes).

(** The pair each exit point returns. *)
Definition exit_returns (e : ExitPoint) : core.Result * bytes :=
  match e with
  | NoCredentials => (core.ResultFailed, None)
  | MissingInput _ => (core.ResultDenied, None)
  | CheckNotSucceeded checkRes => (checkRes, None)
  | RulesDenied => (core.ResultDenied, None)
  | RulesFailed => (core.ResultFailed, None)
  | RootFailed => (core.ResultFailed, None)
  | SignFailed => (core.ResultFailed, None)
  | Signed signature => (core.ResultSucceeded, signature)
  end.

(** The exit points that call [s.monitor.SignCompleted] on the way out. *)
Definition exit_metered (e : ExitPoint) : bool :=
  match e with
  | NoCredentials => false
  | _ => true
  end.

(** *** The collaborators behind the calls *)

Definition is_PreCheck (e : Event) : bool :=
  match e with EvPreCheck _ _ _ _ _ _ _ => true | _ => false end.

(** The four collaborators that decide a request, in the order the
    operation's body names them: [s.preCheck], [s.ruler.RunRules],
    [generateSigningRootFromData] and [signRoot]. *)
Inductive Collaborator : Type := Resolver | Ruler | Deriver | Signer.

Definition collaborator_of (e : Event) : list Collaborator :=
  match e with
  | EvPreCheck _ _ _ _ _ _ _ => [Resolver]
  | EvRunRules _ _ _ _ _ _ _ => [Ruler]
  | EvGenerateSigningRoot _ _ _ _ => [Deriver]
  | EvSignRoot _ _ _ _ => [Signer]
  | EvLog _ _ | EvSignCompleted _ _ _ => []
  end.

(** Who was consulted during a run, in order, with repetitions. *)
Definition consulted {W M : Type} (r : @Run W M) : list Collaborator :=
  flat_map collaborator_of (calls r).

End standard.

(** ** A concrete deployment

    The end-to-end scenario of the specification (section 8): the request
    data, an account that resolves, and stub collaborators whose answers are
    chosen per run.  The stub world is a call counter that doubles as the
    clock; the stub monitor keeps every record it is given. *)

Module scenario.

Import standard.

Definition credentials : checker.Credentials :=
  {| checker.RequestID := "request-1"; checker.Client := "client-1" |}.

Definition data : rules.SignBeaconAttestationData :=
  {| rules.Domain := Some (repeat x01 32);
     rules.Slot := 100;
     rules.CommitteeIndex := 0;
     rules.BeaconBlockRoot := Some (repeat x00 31 ++ [x01])%list;
     rules.Source :=
       Some {| rules.Epoch := 10; rules.Root := Some (repeat xaa 32) |};
     rules.Target :=
       Some {| rules.Epoch := 11; rules.Root := Some (repeat xbb 32) |} |}.

(** The same request with the target root omitted. *)
Definition data_no_target_root : rules.SignBeaconAttestationData :=
  {| rules.Domain := rules.Domain data;
     rules.Slot := rules.Slot data;
     rules.CommitteeIndex := rules.CommitteeIndex data;
     rules.BeaconBlockRoot := rules.BeaconBlockRoot data;
     rules.Source := rules.Source data;
     rules.Target := Some {| rules.Epoch := 11; rules.Root := None |} |}.

(** The same request with an allocated but empty beacon block root. *)
Definition data_empty_block_root : rules.SignBeaconAttestationData :=
  {| rules.Domain := rules.Domain data;
     rules.Slot := rules.Slot data;
     rules.CommitteeIndex := rules.CommitteeIndex data;
     rules.BeaconBlockRoot := Some [];
     rules.Source := rules.Source data;
     rules.Target := rules.Target data |}.

Definition wallet : Wallet := {| wallet_Name := "wallet" |}.

Definition account : Account :=
  {| account_Name := "account"; account_PublicKey := Some (repeat x0c 48) |}.

(** The request as the Ethereum 2 structure. *)
Definition attestation : BeaconAttestation :=
  {| Slot := 100;
     CommitteeIndex := 0;
     BeaconBlockRoot := Some (repeat x00 31 ++ [x01])%list;
     Source := Some {| Epoch := 10; Root := Some (repeat xaa 32) |};
     Target := Some {| Epoch := 11; Root := Some (repeat xbb 32) |} |}.

Definition signing_root : list byte := repeat x5a 32.

Definition signature : bytes := Some (repeat xc3 96).

Definition Record_ : Type := Time * string * core.Result.

Definition stub (checkRes : core.Result) (verdict : rules.Result)
    (rootErr signErr : error) : Service nat (list Record_) :=
  {| time_Now := fun w => Z.of_nat w;
     preCheck := fun _ _ _ _ w => ((wallet, account, checkRes), S w);
     ruler_RunRules := fun _ _ _ _ _ _ w => (verdict, S w);
     generateSigningRootFromData := fun _ _ =>
       match rootErr with
       | None => (signing_root, None)
       | Some e => (repeat x00 32, Some e)
       end;
     signRoot := fun _ _ w =>
       match signErr with
       | None => ((signature, None), S w)
       | Some e => ((None, Some e), S w)
       end;
     monitor_SignCompleted := fun started request result m =>
       (m ++ [(started, request, result)])%list |}.

(** Every collaborator answers favourably. *)
Definition approving : Service nat (list Record_) :=
  stub core.ResultSucceeded rules.APPROVED None None.

(** The approving collaborators with a signer that reports no error and
    hands back [sig]. *)
Definition signing_with (sig : bytes) : Service nat (list Record_) :=
  {| time_Now := time_Now approving;
     preCheck := preCheck approving;
     ruler_RunRules := ruler_RunRules approving;
     generateSigningRootFromData := generateSigningRootFromData approving;
     signRoot := fun _ _ w => ((sig, None), S w);
     monitor_SignCompleted := monitor_SignCompleted approving |}.

(** A monitor that keeps every record, and one that panics on any. *)
Definition recording : Monitor (list Record_) :=
  fun started request result m => Some (m ++ [(started, request, result)])%list.

Definition panicking : Monitor unit :=
  fun _ _ _ _ => None.

(** A monitor that only counts. *)
Definition counting_monitor (_ : Time) (_ : string) (_ : core.Result)
    (n : nat) : nat := S n.

Definition initial : nat * list Record_ := (7%nat, []).

End scenario.


(** * Properties of the pipeline *)

Import standard.

Lemma Result_eqb_eq (a b : core.Result) :
  core.Result_eqb a b = true <-> a = b.
Proof. destruct a, b; simpl; split; intro H; congruence. Qed.

Lemma Result_eqb_neq (a b : core.Result) :
  core.Result_eqb a b = false <-> a <> b.
Proof. destruct a, b; simpl; split; intro H; congruence. Qed.

Lemma is_nil_false {A : Type} (p : option A) :
  negb (is_nil p) = false <-> p = None.
Proof. destruct p; simpl; split; intro H; congruence. Qed.

(** Opening a run: the operation and its blocks, down to the tuple of
    returned pair, final state and calls. *)
Ltac open_run :=
  unfold outcome, signature_of, returned, metered, calls, world_after,
    metrics_after, SignBeaconAttestation, deny, fail, log, emit, call,
    call_pure, SignCompleted, now, bind, ret.

(** One branch of the operation: split on an innermost scrutinee, keeping
    the equation when it is a call or a comparison. *)
Ltac branch :=
  match goal with
  | |- context [match ?x with _ => _ end] =>
      lazymatch x with
      | context [match _ with _ => _ end] => fail
      | _ => first [ is_var x; destruct x | destruct x eqn:? ]
      end
  end; cbn beta iota zeta delta [fst snd app negb is_nil] in *.

Ltac all_paths :=
  open_run; cbn beta iota zeta delta [fst snd app negb is_nil];
  repeat branch.

(** Membership of an event in the calls of one path: one case per call
    of the same kind on that path. *)
Ltac in_calls H :=
  cbn [In] in H;
  repeat match type of H with
         | _ \/ _ => destruct H as [H|H]; [try discriminate H|]
         | False => contradiction
         end;
  inversion H; subst; clear H.

(** A comparison or nil test decided on this path against what is known. *)
Ltac off_path :=
  exfalso;
  repeat match goal with
         | E : negb (is_nil ?e) = _ |- _ => progress cbn in E
         | E : negb (core.Result_eqb ?r _) = false |- _ =>
             apply Bool.negb_false_iff, Result_eqb_eq in E
         | E : (_ =? _)%Z = true |- _ => apply Z.eqb_eq in E
         | E : (_ =? _)%Z = false |- _ => apply Z.eqb_neq in E
         end;
  first [ congruence
        | unfold rules.DENIED, rules.FAILED, rules.APPROVED, rules.UNKNOWN,
            rules.iota in *;
          cbn in *; congruence ].

Section Facts.

Context {W M : Type}.
Variable s : Service W M.

(** Every run leaves through one of the exit points: it returns that
    point's pair, and it files one metrics record, stamped with the time
    read on entry and tagged with the returned outcome, exactly when the
    point is a metered one. *)
Lemma exit_point credentials accountName pubKey data st :
  let r := SignBeaconAttestation s credentials accountName pubKey data st in
  let started := time_Now s (fst st) in
  exists e : ExitPoint,
    returned r = exit_returns e /\
    (e = NoCredentials <-> credentials = None) /\
    (forall checkRes,
        e = CheckNotSucceeded checkRes -> checkRes <> core.ResultSucceeded) /\
    (forall sig,
        e = Signed sig ->
        exists account root w w',
          signRoot s account root w = ((sig, None), w')) /\
    metered r =
      (if exit_metered e
       then [EvSignCompleted started "attestation" (fst (exit_returns e))]
       else []) /\
    metrics_after r =
      (if exit_metered e
       then monitor_SignCompleted s started "attestation"
              (fst (exit_returns e)) (snd st)
       else snd st).
Proof.
  intros r started; subst r started.
  destruct credentials as [c|].
  2:{ exists NoCredentials. open_run. cbn. intuition congruence. }
  all_paths;
    match goal with
    | |- context [EvLog Warn ?msg] => exists (MissingInput msg)
    | |- context [EvLog Debug "Denied by rules"] => exists RulesDenied
    | |- context [EvLog Error "Rules check failed"] => exists RulesFailed
    | |- context [EvLog Error "Failed to generate signing root"] =>
        exists RootFailed
    | |- context [EvLog Error "Failed to sign"] => exists SignFailed
    | |- context [EvLog Trace "Success"] =>
        match goal with
        | |- context [EvSignRoot _ _ ?sg _] => exists (Signed sg)
        end
    | |- context [EvPreCheck _ _ _ _ _ _ ?checkRes] =>
        exists (CheckNotSucceeded checkRes)
    end;
    cbn; repeat split; try discriminate; try reflexivity.
  - (* line 107: the resolver's result is not ResultSucceeded *)
    intros checkRes H; injection H as <-.
    apply Result_eqb_neq.
    now destruct (core.Result_eqb r core.ResultSucceeded).
  - (* line 156: the signature is the one the signer answered with *)
    intros sig H; injection H as <-.
    match goal with
    | E : negb (is_nil ?e) = false |- _ => apply is_nil_false in E; subst e
    end.
    eauto.
Qed.

(** ** Outcome and signature *)

(** C3. At every exit point of SignBeaconAttestation a DENIED or FAILED
    outcome comes with no signature, and a SUCCEEDED outcome comes with
    exactly the bytes that signRoot returned together with a nil error; the
    operation does not look at those bytes. *)
Theorem outcome_signature_pairing credentials accountName pubKey data st :
  let r := SignBeaconAttestation s credentials accountName pubKey data st in
  (outcome r = core.ResultSucceeded ->
   exists account root w w',
     signRoot s account root w = ((signature_of r, None), w')) /\
  (outcome r = core.ResultDenied \/ outcome r = core.ResultFailed ->
   signature_of r = None).
Proof.
  intro r.
  destruct (exit_point credentials accountName pubKey data st)
    as (e & Hret & _ & Hcheck & Hsig & _).
  fold r in Hret. unfold outcome, signature_of. rewrite Hret.
  split.
  - intros Hout.
    destruct e; cbn in Hout |- *; try discriminate.
    + now destruct (Hcheck checkRes eq_refl).
    + exact (Hsig signature eq_refl).
  - intros Hout.
    destruct e; cbn in Hout |- *; try reflexivity.
    destruct Hout; discriminate.
Qed.

(** ** Short circuits *)

(** C2. For a request with credentials whose attestation data is nil, or
    whose domain, beacon-block root, source, source root, target or target
    root is nil, SignBeaconAttestation returns DENIED with no signature,
    RunRules is not invoked, and the state behind the resolver, the rules
    and the signer is untouched. *)
Theorem incomplete_data_denied_before_rules
    credentials accountName pubKey data st :
  incomplete data ->
  let r :=
    SignBeaconAttestation s (Some credentials) accountName pubKey data st in
  returned r = (core.ResultDenied, None) /\
  filter is_RunRules (calls r) = [] /\
  world_after r = fst st.
Proof.
  intros H r; subst r.
  all_paths; cbn; try (repeat split; reflexivity);
    exfalso; cbn in H;
    repeat match goal with
           | E : _ = Some _ |- _ => rewrite E in H
           end;
    decompose [or ex and] H; congruence.
Qed.

(** C6. If credential resolution (preCheck) answers anything other than
    SUCCEEDED, SignBeaconAttestation returns exactly that result with no
    signature, and neither RunRules nor root derivation nor the signer is
    invoked. *)
Theorem resolver_result_short_circuits
    credentials accountName pubKey data st
    c n k a wallet account checkRes :
  let r := SignBeaconAttestation s credentials accountName pubKey data st in
  In (EvPreCheck c n k a wallet account checkRes) (calls r) ->
  checkRes <> core.ResultSucceeded ->
  returned r = (checkRes, None) /\
  filter is_RunRules (calls r) = [] /\
  filter is_GenerateSigningRoot (calls r) = [] /\
  filter is_SignRoot (calls r) = [].
Proof.
  intro r; subst r.
  all_paths; intros Hin Hne; in_calls Hin;
    solve [ cbn; repeat split; reflexivity | off_path ].
Qed.

(** C7. For a request the rules approved, if signing-root derivation
    returns an error or the signer returns an error,
    SignBeaconAttestation returns FAILED with no signature. *)
Theorem derivation_or_signer_error_fails
    credentials accountName pubKey data st c a wn an k d :
  let r := SignBeaconAttestation s credentials accountName pubKey data st in
  In (EvRunRules c a wn an k d rules.APPROVED) (calls r) ->
  (exists att dom root e,
      In (EvGenerateSigningRoot att dom root (Some e)) (calls r)) \/
  (exists acct root sig e,
      In (EvSignRoot acct root sig (Some e)) (calls r)) ->
  returned r = (core.ResultFailed, None).
Proof.
  intro r; subst r.
  all_paths; intros _ [(? & ? & ? & ? & Hin)|(? & ? & ? & ? & Hin)];
    in_calls Hin; solve [ reflexivity | off_path ].
Qed.

(** ** Rule evaluation and signing *)

(** X10. What the switch on the verdict does: DENIED leaves with DENIED, FAILED
    leaves with FAILED, and every other value of the verdict, named or
    not, goes on to signing-root derivation. *)
Lemma verdict_switch credentials accountName pubKey data st c a wn an k d v :
  let r := SignBeaconAttestation s credentials accountName pubKey data st in
  In (EvRunRules c a wn an k d v) (calls r) ->
  (v = rules.DENIED -> returned r = (core.ResultDenied, None)) /\
  (v = rules.FAILED -> returned r = (core.ResultFailed, None)) /\
  (v <> rules.DENIED -> v <> rules.FAILED ->
   exists att dom root err,
     In (EvGenerateSigningRoot att dom root err) (calls r)).
Proof.
  intro r; subst r.
  all_paths; intros Hin; in_calls Hin;
    (split; [|split]); intros;
    solve [ reflexivity | off_path | cbn [In]; eauto 12 ].
Qed.

(** C10. Whenever signing-root derivation is invoked, the BeaconAttestation
    it is given has the Slot, CommitteeIndex, BeaconBlockRoot, Source.Epoch,
    Source.Root, Target.Epoch and Target.Root of the request data, and the
    domain it is given is the request's Domain; whenever the signer is
    invoked, the root it is given is the digest that derivation returned. *)
Theorem signing_root_from_requested_fields
    credentials accountName pubKey data st :
  let r := SignBeaconAttestation s credentials accountName pubKey data st in
  (forall att dom root err,
      In (EvGenerateSigningRoot att dom root err) (calls r) ->
      exists d source target,
        data = Some d /\
        rules.Source d = Some source /\
        rules.Target d = Some target /\
        Slot att = rules.Slot d /\
        CommitteeIndex att = rules.CommitteeIndex d /\
        BeaconBlockRoot att = rules.BeaconBlockRoot d /\
        Source att = Some {| Epoch := rules.Epoch source;
                             Root := rules.Root source |} /\
        Target att = Some {| Epoch := rules.Epoch target;
                             Root := rules.Root target |} /\
        dom = rules.Domain d /\
        (root, err) = generateSigningRootFromData s att dom) /\
  (forall account root sig err,
      In (EvSignRoot account root sig err) (calls r) ->
      exists att dom digest,
        In (EvGenerateSigningRoot att dom digest None) (calls r) /\
        root = Some digest).
Proof.
  intro r; subst r.
  all_paths; split; intros ? ? ? ? Hin; in_calls Hin.
  all: try match goal with
           | Hs : rules.Source ?d = Some ?src,
             Ht : rules.Target ?d = Some ?tgt
             |- exists _ _ _, Some _ = Some _ /\ _ =>
               exists d, src, tgt; cbn; repeat split; congruence
           end.
  all: repeat match goal with
              | E : negb (is_nil ?e) = false |- _ =>
                  apply is_nil_false in E; subst e
              end;
       cbn [In]; eauto 12.
Qed.

(** ** The metrics collaborator *)

(** C8. The metrics collaborator reaches the caller in one way only, by
    panicking.  For any two monitor implementations, on the same inputs and
    the same resolver, ruler, root derivation and signer: two calls that
    both return, return the same pair of outcome and signature; a call
    returns nothing exactly when credentials were present and its monitor
    panicked on the one record of the call; and either way the state behind
    the other collaborators ends up the same. *)
Theorem monitor_reaches_caller_only_by_panic {M1 M2 : Type}
    (monitor1 : Monitor M1) (monitor2 : Monitor M2)
    credentials accountName pubKey data (w : W) (m1 : M1) (m2 : M2) :
  let r1 :=
    SignBeaconAttestation (monitored s monitor1)
      credentials accountName pubKey data (w, Some m1) in
  let r2 :=
    SignBeaconAttestation (monitored s monitor2)
      credentials accountName pubKey data (w, Some m2) in
  (forall p1 p2,
      call_result r1 = Some p1 -> call_result r2 = Some p2 -> p1 = p2) /\
  (call_result r1 = None <->
   credentials <> None /\
   monitor1 (time_Now s w) "attestation" (outcome r1) m1 = None) /\
  world_after r1 = world_after r2.
Proof.
  intros r1 r2; subst r1 r2.
  unfold call_result. open_run; unfold monitored, with_monitor, unwinding.
  cbn [time_Now preCheck ruler_RunRules generateSigningRootFromData
       signRoot monitor_SignCompleted fst snd].
  repeat branch.
  all: repeat split; try reflexivity; try congruence.
  all: try (intros [Hc _]; congruence).
  all: try (intros; discriminate).
  all: try (intros [_ Hm]; congruence).
Qed.

(** ** Metrics *)

(** C4. Called with nil credentials, SignBeaconAttestation returns FAILED,
    which is not DENIED, with no signature, and files no metrics record
    (the monitor is left as it was); no other call of the operation
    leaves without a metrics record. *)
Theorem nil_credentials_fail_unmetered accountName pubKey data st :
  let r := SignBeaconAttestation s None accountName pubKey data st in
  returned r = (core.ResultFailed, None) /\
  outcome r <> core.ResultDenied /\
  metered r = [] /\
  metrics_after r = snd st /\
  (forall credentials,
      metered
        (SignBeaconAttestation s credentials accountName pubKey data st)
        = [] ->
      credentials = None).
Proof.
  intro r; repeat split; try discriminate.
  intros credentials H.
  destruct (exit_point credentials accountName pubKey data st)
    as (e & _ & Hnil & _ & _ & Hmet & _).
  rewrite H in Hmet.
  apply Hnil. destruct e; cbn in Hmet; congruence.
Qed.

(** C5. Called with credentials, SignBeaconAttestation files exactly one
    metrics record through SignCompleted: it carries the time read on
    entry, the action name "attestation" and the outcome the call
    returns. *)
Theorem one_metrics_record credentials accountName pubKey data st :
  let r :=
    SignBeaconAttestation s (Some credentials) accountName pubKey data st in
  let started := time_Now s (fst st) in
  metered r = [EvSignCompleted started "attestation" (outcome r)] /\
  metrics_after r =
    monitor_SignCompleted s started "attestation" (outcome r) (snd st).
Proof.
  intros r started.
  destruct (exit_point (Some credentials) accountName pubKey data st)
    as (e & Hret & Hnil & _ & _ & Hmet & Hmon).
  fold r started in Hret, Hmet, Hmon.
  unfold outcome. rewrite Hret, Hmet, Hmon.
  destruct e; cbn; try (split; reflexivity).
  now destruct Hnil as [Hnil _]; specialize (Hnil eq_refl).
Qed.

End Facts.

(** ** Verdicts *)

Section Verdicts.

Import rules.

Lemma reduce_max_upper (verdicts : list Result) (v : Result) :
  In v verdicts -> v <= reduce_max verdicts.
Proof.
  induction verdicts as [|x verdicts IH]; cbn; [contradiction|].
  intros [->|Hin]; [lia|]. specialize (IH Hin). fold (reduce_max verdicts). lia.
Qed.

Lemma reduce_max_attained (verdicts : list Result) :
  reduce_max verdicts = zero_value \/ In (reduce_max verdicts) verdicts.
Proof.
  induction verdicts as [|x verdicts IH]; cbn; [now left|].
  fold (reduce_max verdicts).
  destruct (Z.max_spec x (reduce_max verdicts)) as [[_ ->]|[_ ->]].
  - destruct IH as [->|IH]; auto.
  - auto.
Qed.

Lemma reduce_max_named (verdicts : list Result) :
  Forall named verdicts -> named (reduce_max verdicts).
Proof.
  intros Hall.
  destruct (reduce_max_attained verdicts) as [->|Hin].
  - now left.
  - exact (proj1 (Forall_forall _ _) Hall _ Hin).
Qed.

(** The reduction does not depend on the order the verdicts come in. *)
Lemma reduce_max_order_free (verdicts verdicts' : list Result) :
  Permutation verdicts verdicts' -> reduce_max verdicts = reduce_max verdicts'.
Proof.
  induction 1 as [|x l l' _ IH|x y l|l l' l'' _ IH1 _ IH2]; cbn.
  - reflexivity.
  - fold (reduce_max l) (reduce_max l'). now rewrite IH.
  - lia.
  - congruence.
Qed.

(** C9. As integers the verdict constants are ordered
    UNKNOWN < APPROVED < DENIED < FAILED and UNKNOWN is the zero value of
    Result; hence over any collection of named verdicts the maximum is
    FAILED as soon as one is FAILED, DENIED as soon as one is DENIED and
    none is FAILED, and APPROVED only if none is DENIED or FAILED. *)
Theorem verdict_order_fail_closed :
  zero_value = UNKNOWN /\
  UNKNOWN < APPROVED /\ APPROVED < DENIED /\ DENIED < FAILED /\
  forall verdicts : list Result,
    Forall named verdicts ->
    (In FAILED verdicts -> reduce_max verdicts = FAILED) /\
    (In DENIED verdicts -> ~ In FAILED verdicts ->
     reduce_max verdicts = DENIED) /\
    (reduce_max verdicts = APPROVED ->
     ~ In DENIED verdicts /\ ~ In FAILED verdicts).
Proof.
  do 4 (split; [reflexivity|]).
  intros verdicts Hall.
  pose proof (reduce_max_named _ Hall) as Hnamed.
  pose proof (reduce_max_attained verdicts) as Hat.
  unfold named, zero_value, UNKNOWN, APPROVED, DENIED, FAILED, iota in *.
  cbn [Z.of_nat Pos.of_succ_nat Pos.succ] in *.
  repeat split.
  - intros Hin. apply reduce_max_upper in Hin. lia.
  - intros Hin Hnot. apply reduce_max_upper in Hin.
    destruct Hat as [E|Hat]; [lia|].
    destruct Hnamed as [E|[E|[E|E]]]; try lia.
    rewrite E in Hat. contradiction.
  - intros Hin. apply reduce_max_upper in Hin. lia.
  - intros Hin. apply reduce_max_upper in Hin. lia.
Qed.

End Verdicts.

(** ** The specification's scenarios, run *)

(** C1. A run that reaches rule evaluation and gets UNKNOWN from RunRules:
    the switch on the verdict has no case for it, the run goes on to root
    derivation and to the signer, and it returns SUCCEEDED with the signer's
    signature, where an UNKNOWN verdict was to be treated as FAILED. *)
Theorem unknown_verdict_is_signed :
  let s := scenario.stub core.ResultSucceeded rules.UNKNOWN None None in
  let r :=
    SignBeaconAttestation s (Some scenario.credentials) "account" None
      (Some scenario.data) scenario.initial in
  filter is_RunRules (calls r) =
    [EvRunRules scenario.credentials ruler.ActionSignBeaconAttestation
       "wallet" "account" (account_PublicKey scenario.account)
       scenario.data rules.UNKNOWN] /\
  filter is_SignRoot (calls r) =
    [EvSignRoot scenario.account (Some scenario.signing_root)
       scenario.signature None] /\
  returned r = (core.ResultSucceeded, scenario.signature) /\
  returned r <> (core.ResultFailed, None).
Proof.
  vm_compute. repeat split; discriminate.
Qed.

(** The first end-to-end scenario: everything approves, the outcome is
    SUCCEEDED with the signature and one record tagged SUCCEEDED. *)
Example scenario_succeeds :
  let r :=
    SignBeaconAttestation scenario.approving (Some scenario.credentials)
      "account" None (Some scenario.data) scenario.initial in
  returned r = (core.ResultSucceeded, scenario.signature) /\
  metrics_after r = [(7, "attestation", core.ResultSucceeded)].
Proof. vm_compute. split; reflexivity. Qed.

(** The input checks compare with nil: a beacon block root that is an
    allocated slice of length zero is not missing, and the request goes on
    to the rules and, once approved, to the signer. *)
Example empty_block_root_is_present :
  let r :=
    SignBeaconAttestation scenario.approving (Some scenario.credentials)
      "account" None (Some scenario.data_empty_block_root) scenario.initial in
  ~ incomplete (Some scenario.data_empty_block_root) /\
  filter is_RunRules (calls r) =
    [EvRunRules scenario.credentials ruler.ActionSignBeaconAttestation
       "wallet" "account" (account_PublicKey scenario.account)
       scenario.data_empty_block_root rules.APPROVED] /\
  outcome r = core.ResultSucceeded.
Proof.
  split; [|vm_compute; split; reflexivity].
  cbn. intros H. decompose [or ex and] H; try discriminate.
  - match goal with E : Some _ = Some ?c |- _ => injection E as <- end.
    discriminate.
  - match goal with E : Some _ = Some ?c |- _ => injection E as <- end.
    discriminate.
Qed.

(** ** The theorems at work on the scenarios *)

(** The second end-to-end scenario: the target root is omitted. *)
Lemma incomplete_data_denied_before_rules_witness :
  let r :=
    SignBeaconAttestation scenario.approving (Some scenario.credentials)
      "account" None (Some scenario.data_no_target_root) scenario.initial in
  incomplete (Some scenario.data_no_target_root) /\
  returned r = (core.ResultDenied, None) /\
  filter is_RunRules (calls r) = [] /\
  world_after r = fst scenario.initial.
Proof.
  assert (H : incomplete (Some scenario.data_no_target_root)).
  { cbn. do 5 right. eexists. split; reflexivity. }
  split; [exact H|].
  exact (incomplete_data_denied_before_rules scenario.approving
           scenario.credentials "account" None
           (Some scenario.data_no_target_root) scenario.initial H).
Defined.

Lemma outcome_signature_pairing_witness :
  let r :=
    SignBeaconAttestation scenario.approving (Some scenario.credentials)
      "account" None (Some scenario.data) scenario.initial in
  outcome r = core.ResultSucceeded /\
  exists account root w w',
    signRoot scenario.approving account root w =
      ((signature_of r, None), w').
Proof.
  intros r.
  assert (H : outcome r = core.ResultSucceeded) by reflexivity.
  split; [exact H|].
  exact (proj1 (outcome_signature_pairing scenario.approving
                  (Some scenario.credentials) "account" None
                  (Some scenario.data) scenario.initial) H).
Defined.

Lemma nil_credentials_fail_unmetered_witness :
  metered
    (SignBeaconAttestation scenario.approving None "account" None
       (Some scenario.data) scenario.initial) = [] /\
  @None checker.Credentials = None.
Proof.
  split; [reflexivity|].
  destruct (nil_credentials_fail_unmetered scenario.approving "account" None
              (Some scenario.data) scenario.initial)
    as (_ & _ & _ & _ & Honly).
  apply Honly. reflexivity.
Defined.

Lemma resolver_result_short_circuits_witness :
  let s := scenario.stub core.ResultDenied rules.APPROVED None None in
  let r :=
    SignBeaconAttestation s (Some scenario.credentials) "account" None
      (Some scenario.data) scenario.initial in
  In (EvPreCheck scenario.credentials "account" None
        ruler.ActionSignBeaconAttestation scenario.wallet scenario.account
        core.ResultDenied) (calls r) /\
  returned r = (core.ResultDenied, None) /\
  filter is_RunRules (calls r) = [] /\
  filter is_GenerateSigningRoot (calls r) = [] /\
  filter is_SignRoot (calls r) = [].
Proof.
  intros s r.
  assert (H : In (EvPreCheck scenario.credentials "account" None
                    ruler.ActionSignBeaconAttestation scenario.wallet
                    scenario.account core.ResultDenied) (calls r)).
  { vm_compute. right; left; reflexivity. }
  split; [exact H|].
  apply (resolver_result_short_circuits s (Some scenario.credentials)
           "account" None (Some scenario.data) scenario.initial _ _ _ _ _ _ _ H).
  discriminate.
Defined.

Lemma derivation_or_signer_error_fails_witness :
  let s :=
    scenario.stub core.ResultSucceeded rules.APPROVED None
      (Some "account is locked") in
  let r :=
    SignBeaconAttestation s (Some scenario.credentials) "account" None
      (Some scenario.data) scenario.initial in
  In (EvRunRules scenario.credentials ruler.ActionSignBeaconAttestation
        "wallet" "account" (account_PublicKey scenario.account)
        scenario.data rules.APPROVED) (calls r) /\
  In (EvSignRoot scenario.account (Some scenario.signing_root) None
        (Some "account is locked")) (calls r) /\
  returned r = (core.ResultFailed, None).
Proof.
  intros s r.
  assert (Hrules :
            In (EvRunRules scenario.credentials
                  ruler.ActionSignBeaconAttestation "wallet" "account"
                  (account_PublicKey scenario.account) scenario.data
                  rules.APPROVED) (calls r)).
  { vm_compute. do 2 right; left; reflexivity. }
  assert (Hsign :
            In (EvSignRoot scenario.account (Some scenario.signing_root) None
                  (Some "account is locked")) (calls r)).
  { vm_compute. do 4 right; left; reflexivity. }
  split; [exact Hrules|]. split; [exact Hsign|].
  apply (derivation_or_signer_error_fails s (Some scenario.credentials)
           "account" None (Some scenario.data) scenario.initial
           _ _ _ _ _ _ Hrules).
  right. eexists _, _, _, _. exact Hsign.
Defined.

Lemma signing_root_from_requested_fields_witness :
  let r :=
    SignBeaconAttestation scenario.approving (Some scenario.credentials)
      "account" None (Some scenario.data) scenario.initial in
  let att := scenario.attestation in
  let dom := Some (repeat x01 32) in
  In (EvGenerateSigningRoot att dom scenario.signing_root None) (calls r) /\
  exists d source target,
    Some scenario.data = Some d /\
    rules.Source d = Some source /\
    rules.Target d = Some target /\
    Slot att = rules.Slot d /\
    CommitteeIndex att = rules.CommitteeIndex d /\
    BeaconBlockRoot att = rules.BeaconBlockRoot d /\
    Source att = Some {| Epoch := rules.Epoch source;
                         Root := rules.Root source |} /\
    Target att = Some {| Epoch := rules.Epoch target;
                         Root := rules.Root target |} /\
    dom = rules.Domain d /\
    (scenario.signing_root, None) =
      generateSigningRootFromData scenario.approving att dom.
Proof.
  intros r att dom.
  assert (H : In (EvGenerateSigningRoot att dom scenario.signing_root None)
                 (calls r)).
  { vm_compute. do 3 right; left; reflexivity. }
  split; [exact H|].
  exact (proj1 (signing_root_from_requested_fields scenario.approving
                  (Some scenario.credentials) "account" None
                  (Some scenario.data) scenario.initial) _ _ _ _ H).
Defined.

Lemma verdict_order_fail_closed_witness :
  let verdicts := [rules.APPROVED; rules.FAILED; rules.DENIED] in
  Forall rules.named verdicts /\
  In rules.FAILED verdicts /\
  rules.reduce_max verdicts = rules.FAILED.
Proof.
  intros verdicts.
  assert (H : Forall rules.named verdicts).
  { repeat (apply Forall_cons; [unfold rules.named; auto|]).
    apply Forall_nil. }
  assert (Hin : In rules.FAILED verdicts) by (right; left; reflexivity).
  split; [exact H|]. split; [exact Hin|].
  destruct verdict_order_fail_closed as (_ & _ & _ & _ & Hmax).
  destruct (Hmax verdicts H) as (Hfailed & _ & _).
  exact (Hfailed Hin).
Defined.

(** * Further properties of the operation *)

Section Protocol.

Context {W M : Type}.
Variable s : Service W M.

(** X7. The collaborators are consulted in the order resolver, ruler, root
    derivation, signer, each at most once, and a run stops consulting at
    some point of that sequence: nobody is asked twice and nobody is
    skipped. *)
Theorem collaborators_consulted_in_order
    credentials accountName pubKey data st :
  let r := SignBeaconAttestation s credentials accountName pubKey data st in
  exists n : nat,
    consulted r = firstn n [Resolver; Ruler; Deriver; Signer].
Proof.
  intro r; subst r. unfold consulted.
  all_paths; cbn [flat_map collaborator_of app].
  all: first [ now exists 0%nat | now exists 1%nat | now exists 2%nat
             | now exists 3%nat | now exists 4%nat ].
Qed.

(** ** What each collaborator is asked *)

(** X5. The resolver is asked exactly when credentials are present and no
    checked field of the data is nil, and then about the caller's own
    credentials, account name and public key, for the attestation action.
    A run that does not ask it leaves the state behind the key store, the
    rules and the signer as it found it. *)
Theorem resolver_asked_iff_input_passes
    credentials accountName pubKey data st c n k a :
  let r := SignBeaconAttestation s credentials accountName pubKey data st in
  ((exists wallet account checkRes,
       In (EvPreCheck c n k a wallet account checkRes) (calls r)) <->
   (credentials = Some c /\ n = accountName /\ k = pubKey /\
    a = ruler.ActionSignBeaconAttestation /\ ~ incomplete data)) /\
  (filter is_PreCheck (calls r) = [] -> world_after r = fst st).
Proof.
  intro r; subst r.
  all_paths; (split; [split|]).
  all: try (intros _; reflexivity).
  all: try (intros H; discriminate H).
  all: try (intros (? & ? & ? & Hin); in_calls Hin;
            repeat split; try reflexivity;
            intros H; cbn in H;
            repeat match goal with
                   | E : _ = Some _ |- _ => rewrite E in H
                   end;
            decompose [or ex and] H; congruence).
  all: try (intros (Hc & -> & -> & -> & Hinc);
            first [ discriminate Hc
                  | exfalso; apply Hinc; cbn; now eauto 10
                  | injection Hc as <-; cbn [In]; eauto 12 ]).
Qed.

(** X4. The rules are asked about the request as it came in and about the
    account the resolver found: RunRules receives the caller's credentials,
    the attestation action, the name of the resolved wallet, the name and
    public key of the resolved account, and the request data, in which no
    checked field is nil. *)
Theorem rules_asked_about_resolved_account
    credentials accountName pubKey data st c a wn an k d v :
  let r := SignBeaconAttestation s credentials accountName pubKey data st in
  In (EvRunRules c a wn an k d v) (calls r) ->
  credentials = Some c /\
  a = ruler.ActionSignBeaconAttestation /\
  data = Some d /\
  ~ incomplete data /\
  exists wallet account,
    In (EvPreCheck c accountName pubKey a wallet account
          core.ResultSucceeded) (calls r) /\
    wn = wallet_Name wallet /\
    an = account_Name account /\
    k = account_PublicKey account.
Proof.
  intro r; subst r.
  all_paths; intros Hin; in_calls Hin.
  all: match goal with
       | E : negb (core.Result_eqb ?res _) = false |- _ =>
           apply Bool.negb_false_iff, Result_eqb_eq in E; subst res
       end.
  all: repeat split; try reflexivity;
       try (cbn [In]; now eauto 12);
       intros H; cbn in H;
       repeat match goal with
              | E : _ = Some _ |- _ => rewrite E in H
              end;
       decompose [or ex and] H; congruence.
Qed.

(** X3. The signer is asked only behind every gate, and about one account
    throughout: whenever signRoot is invoked, the resolver answered
    SUCCEEDED with that very account, the rules were asked about that
    account's name and public key and answered neither DENIED nor FAILED,
    and root derivation reported no error and produced the digest being
    signed. *)
Theorem signer_asked_only_behind_gates
    credentials accountName pubKey data st account root sig err :
  let r := SignBeaconAttestation s credentials accountName pubKey data st in
  In (EvSignRoot account root sig err) (calls r) ->
  exists c wallet d v att dom digest,
    In (EvPreCheck c accountName pubKey ruler.ActionSignBeaconAttestation
          wallet account core.ResultSucceeded) (calls r) /\
    In (EvRunRules c ruler.ActionSignBeaconAttestation (wallet_Name wallet)
          (account_Name account) (account_PublicKey account) d v) (calls r) /\
    v <> rules.DENIED /\ v <> rules.FAILED /\
    In (EvGenerateSigningRoot att dom digest None) (calls r) /\
    root = Some digest.
Proof.
  intro r; subst r.
  all_paths; intros Hin; in_calls Hin.
  all: repeat match goal with
              | E : negb (core.Result_eqb ?res _) = false |- _ =>
                  apply Bool.negb_false_iff, Result_eqb_eq in E; subst res
              | E : negb (is_nil ?e) = false |- _ =>
                  apply is_nil_false in E; subst e
              | E : (_ =? _)%Z = false |- _ => apply Z.eqb_neq in E
              end.
  all: do 7 eexists; cbn [In];
       repeat match goal with |- _ /\ _ => split end;
       try eassumption; try reflexivity; eauto 12.
Qed.

(** ** Why a run ends the way it does *)

(** X2. A SUCCEEDED outcome means a signature was made for this request: the
    credentials were present, no checked field of the data was nil, the
    signer was asked, reported no error, and the bytes returned are the
    bytes it answered with. *)
Theorem succeeded_means_signed credentials accountName pubKey data st :
  let r := SignBeaconAttestation s credentials accountName pubKey data st in
  outcome r = core.ResultSucceeded ->
  credentials <> None /\
  ~ incomplete data /\
  exists account root,
    In (EvSignRoot account root (signature_of r) None) (calls r).
Proof.
  intro r; subst r.
  all_paths; intros Hout; try discriminate Hout.
  - exfalso.
    match goal with
    | E : negb (core.Result_eqb _ _) = true |- _ =>
        rewrite Hout in E; discriminate E
    end.
  - match goal with
    | E : negb (is_nil ?e) = false |- context [EvSignRoot _ _ _ ?e] =>
        apply is_nil_false in E; subst e
    end.
    split; [discriminate|]. split; [|cbn [In]; eauto 12].
    intros H; cbn in H.
    repeat match goal with
           | E : _ = Some _ |- _ => rewrite E in H
           end.
    decompose [or ex and] H; congruence.
Qed.

(** X8. A DENIED outcome has one of three causes, and none of them is past the
    rules: a checked field of the data was nil, or the resolver answered
    DENIED, or the rules answered DENIED.  In every case credentials were
    present and neither root derivation nor the signer was asked. *)
Theorem denied_has_a_cause credentials accountName pubKey data st :
  let r := SignBeaconAttestation s credentials accountName pubKey data st in
  outcome r = core.ResultDenied ->
  credentials <> None /\
  filter is_GenerateSigningRoot (calls r) = [] /\
  filter is_SignRoot (calls r) = [] /\
  (incomplete data \/
   (exists c n k a wallet account,
       In (EvPreCheck c n k a wallet account core.ResultDenied) (calls r)) \/
   (exists c a wn an k d,
       In (EvRunRules c a wn an k d rules.DENIED) (calls r))).
Proof.
  intro r; subst r.
  all_paths; intros Hout; try discriminate Hout.
  all: split; [discriminate|]; split; [reflexivity|]; split; [reflexivity|].
  all: try (left; cbn; now eauto 10).
  - right; left. cbn in Hout; subst. cbn [In]. eauto 12.
  - right; right.
    match goal with
    | E : (?v =? rules.DENIED)%Z = true |- _ => apply Z.eqb_eq in E; subst v
    end.
    cbn [In]. eauto 12.
Qed.

(** X9. A FAILED outcome has one of five causes: no credentials, the resolver
    answered FAILED, the rules answered FAILED, root derivation returned an
    error, or the signer returned an error. *)
Theorem failed_has_a_cause credentials accountName pubKey data st :
  let r := SignBeaconAttestation s credentials accountName pubKey data st in
  outcome r = core.ResultFailed ->
  credentials = None \/
  (exists c n k a wallet account,
      In (EvPreCheck c n k a wallet account core.ResultFailed) (calls r)) \/
  (exists c a wn an k d,
      In (EvRunRules c a wn an k d rules.FAILED) (calls r)) \/
  (exists att dom root e,
      In (EvGenerateSigningRoot att dom root (Some e)) (calls r)) \/
  (exists account root sig e,
      In (EvSignRoot account root sig (Some e)) (calls r)).
Proof.
  intro r; subst r.
  all_paths; intros Hout; try discriminate Hout.
  all: try (left; reflexivity).
  - right; left. cbn in Hout; subst. cbn [In]. eauto 12.
  - right; right; left.
    match goal with
    | E : (?v =? rules.FAILED)%Z = true |- _ => apply Z.eqb_eq in E; subst v
    end.
    cbn [In]. eauto 12.
  - do 3 right; left.
    match goal with
    | E : negb (is_nil ?e) = true |- _ => destruct e; [|discriminate E]
    end.
    cbn [In]. eauto 14.
  - do 4 right.
    match goal with
    | E : negb (is_nil ?e) = true |- _ => destruct e; [|discriminate E]
    end.
    cbn [In]. eauto 14.
Qed.

(** ** Order of the side effects *)

(** X12. With credentials, the metrics record is the last thing a run does:
    every log line and every call to a collaborator comes before it. *)
Theorem metrics_recorded_last credentials accountName pubKey data st :
  let r :=
    SignBeaconAttestation s (Some credentials) accountName pubKey data st in
  exists before,
    calls r =
      (before ++
       [EvSignCompleted (time_Now s (fst st)) "attestation" (outcome r)])%list
    /\ filter is_SignCompleted before = [].
Proof.
  intro r; subst r.
  all_paths;
    match goal with
    | |- exists before, ?l = _ /\ _ =>
        exists (removelast l); cbn; split; reflexivity
    end.
Qed.

(** X13. The level of a log line tells the outcome: an Error line is only
    written by a run that returns FAILED, a Warn or Debug line only by a
    run that returns DENIED. *)
Theorem log_level_tells_outcome
    credentials accountName pubKey data st lvl msg :
  let r := SignBeaconAttestation s credentials accountName pubKey data st in
  In (EvLog lvl msg) (calls r) ->
  (lvl = Error -> outcome r = core.ResultFailed) /\
  (lvl = Warn \/ lvl = Debug -> outcome r = core.ResultDenied).
Proof.
  intro r; subst r.
  all_paths; intros Hin; cbn [In] in Hin.
  all: repeat match type of Hin with
              | _ \/ _ => destruct Hin as [Hin|Hin]
              | False => contradiction
              end;
       try discriminate Hin; injection Hin as <- <-;
       split; intros H; first [reflexivity | discriminate H
                              | destruct H; discriminate].
Qed.

(** ** Runs, from what the collaborators answer *)

(** X1. An approved request is signed.  With credentials and data in which no
    checked field is nil, if the resolver answers SUCCEEDED, the rules
    asked about the resolved account answer APPROVED, root derivation of
    the copied fields under the request's domain returns a digest and the
    signer signs it, then the run returns SUCCEEDED with the signer's
    signature, files a SUCCEEDED record, and leaves the collaborators in
    the state the signer left: each one worked on the state its
    predecessor left. *)
Theorem approved_request_is_signed
    c accountName pubKey d source target st
    wallet account w1 w2 w3 digest sig :
  rules.BeaconBlockRoot d <> None ->
  rules.Domain d <> None ->
  rules.Source d = Some source -> rules.Root source <> None ->
  rules.Target d = Some target -> rules.Root target <> None ->
  preCheck s c accountName pubKey ruler.ActionSignBeaconAttestation (fst st)
    = ((wallet, account, core.ResultSucceeded), w1) ->
  ruler_RunRules s c ruler.ActionSignBeaconAttestation (wallet_Name wallet)
    (account_Name account) (account_PublicKey account) d w1
    = (rules.APPROVED, w2) ->
  generateSigningRootFromData s
    {| Slot := rules.Slot d;
       CommitteeIndex := rules.CommitteeIndex d;
       BeaconBlockRoot := rules.BeaconBlockRoot d;
       Source := Some {| Epoch := rules.Epoch source;
                         Root := rules.Root source |};
       Target := Some {| Epoch := rules.Epoch target;
                         Root := rules.Root target |} |}
    (rules.Domain d)
    = (digest, None) ->
  signRoot s account (Some digest) w2 = ((sig, None), w3) ->
  let r :=
    SignBeaconAttestation s (Some c) accountName pubKey (Some d) st in
  returned r = (core.ResultSucceeded, sig) /\
  world_after r = w3 /\
  metrics_after r =
    monitor_SignCompleted s (time_Now s (fst st)) "attestation"
      core.ResultSucceeded (snd st).
Proof.
  intros Hb Hd Hs Hsr Ht Htr Hpre Hrules Hroot Hsign r; subst r.
  open_run. cbn beta iota zeta delta [fst snd app negb is_nil].
  rewrite Hs, Ht.
  destruct (rules.BeaconBlockRoot d) as [blockRoot|]; [|congruence].
  destruct (rules.Domain d) as [domain|]; [|congruence].
  destruct (rules.Root source) as [sourceRoot|]; [|congruence].
  destruct (rules.Root target) as [targetRoot|]; [|congruence].
  rewrite Hpre. cbn. rewrite Hrules. cbn. rewrite Hroot. cbn.
  rewrite Hsign. cbn. repeat split; reflexivity.
Qed.

(** X11. Nothing is rolled back.  When the rules have been asked and the run
    then ends without the signer (the rules answered DENIED or FAILED, or
    root derivation returned an error), the state behind the collaborators
    is the one the rules left: what the resolver and the rules did to it
    stays done although nothing was signed. *)
Theorem rules_effects_are_kept
    c accountName pubKey d source target st
    wallet account w1 w2 v :
  rules.BeaconBlockRoot d <> None ->
  rules.Domain d <> None ->
  rules.Source d = Some source -> rules.Root source <> None ->
  rules.Target d = Some target -> rules.Root target <> None ->
  preCheck s c accountName pubKey ruler.ActionSignBeaconAttestation (fst st)
    = ((wallet, account, core.ResultSucceeded), w1) ->
  ruler_RunRules s c ruler.ActionSignBeaconAttestation (wallet_Name wallet)
    (account_Name account) (account_PublicKey account) d w1
    = (v, w2) ->
  let r :=
    SignBeaconAttestation s (Some c) accountName pubKey (Some d) st in
  filter is_SignRoot (calls r) = [] ->
  outcome r <> core.ResultSucceeded /\ world_after r = w2.
Proof.
  intros Hb Hd Hs Hsr Ht Htr Hpre Hrules r; subst r.
  open_run. cbn beta iota zeta delta [fst snd app negb is_nil].
  rewrite Hs, Ht.
  destruct (rules.BeaconBlockRoot d) as [blockRoot|]; [|congruence].
  destruct (rules.Domain d) as [domain|]; [|congruence].
  destruct (rules.Root source) as [sourceRoot|]; [|congruence].
  destruct (rules.Root target) as [targetRoot|]; [|congruence].
  rewrite Hpre. cbn. rewrite Hrules. cbn.
  repeat branch; cbn; intros H; try discriminate H;
    (split; [discriminate|reflexivity]).
Qed.

(** ** Warnings *)

(** X14. A warning names the field that is missing: each "Request missing ..."
    line is written only when the data, or the field of the data it names,
    is nil. *)
Theorem warning_names_missing_field
    credentials accountName pubKey data st msg :
  let r := SignBeaconAttestation s credentials accountName pubKey data st in
  In (EvLog Warn msg) (calls r) ->
  (msg = "Request missing data" /\ data = None) \/
  exists d,
    data = Some d /\
    ((msg = "Request missing beacon block root" /\
      rules.BeaconBlockRoot d = None) \/
     (msg = "Request missing domain" /\ rules.Domain d = None) \/
     (msg = "Request missing source" /\ rules.Source d = None) \/
     (msg = "Request missing source root" /\
      exists source, rules.Source d = Some source /\
                     rules.Root source = None) \/
     (msg = "Request missing target" /\ rules.Target d = None) \/
     (msg = "Request missing target root" /\
      exists target, rules.Target d = Some target /\
                     rules.Root target = None)).
Proof.
  intro r; subst r.
  all_paths; intros Hin; in_calls Hin.
  all: first [ left; split; reflexivity
             | right; eexists; split; [reflexivity|]; eauto 12 ].
Qed.

End Protocol.

(** ** The further properties at work on the scenarios *)

Lemma verdict_switch_witness :
  let s := scenario.stub core.ResultSucceeded rules.DENIED None None in
  let r :=
    SignBeaconAttestation s (Some scenario.credentials) "account" None
      (Some scenario.data) scenario.initial in
  In (EvRunRules scenario.credentials ruler.ActionSignBeaconAttestation
        "wallet" "account" (account_PublicKey scenario.account)
        scenario.data rules.DENIED) (calls r) /\
  returned r = (core.ResultDenied, None).
Proof.
  intros s r.
  assert (H : In (EvRunRules scenario.credentials
                    ruler.ActionSignBeaconAttestation "wallet" "account"
                    (account_PublicKey scenario.account) scenario.data
                    rules.DENIED) (calls r)).
  { vm_compute. do 2 right; left; reflexivity. }
  split; [exact H|].
  exact (proj1 (verdict_switch s (Some scenario.credentials) "account" None
                  (Some scenario.data) scenario.initial _ _ _ _ _ _ _ H)
           eq_refl).
Defined.

Lemma resolver_asked_iff_input_passes_witness :
  let r :=
    SignBeaconAttestation scenario.approving (Some scenario.credentials)
      "account" None (Some scenario.data_empty_block_root)
      scenario.initial in
  ~ incomplete (Some scenario.data_empty_block_root) /\
  exists wallet account checkRes,
    In (EvPreCheck scenario.credentials "account" None
          ruler.ActionSignBeaconAttestation wallet account checkRes)
       (calls r).
Proof.
  intros r.
  assert (H : ~ incomplete (Some scenario.data_empty_block_root)).
  { cbn. intros H. decompose [or ex and] H; try discriminate.
    - match goal with E : Some _ = Some ?c |- _ => injection E as <- end.
      discriminate.
    - match goal with E : Some _ = Some ?c |- _ => injection E as <- end.
      discriminate. }
  split; [exact H|].
  apply (proj1 (resolver_asked_iff_input_passes scenario.approving
                  (Some scenario.credentials) "account" None
                  (Some scenario.data_empty_block_root) scenario.initial
                  scenario.credentials "account" None
                  ruler.ActionSignBeaconAttestation)).
  repeat split; try reflexivity. exact H.
Defined.

Lemma rules_asked_about_resolved_account_witness :
  let r :=
    SignBeaconAttestation scenario.approving (Some scenario.credentials)
      "account" None (Some scenario.data) scenario.initial in
  In (EvRunRules scenario.credentials ruler.ActionSignBeaconAttestation
        "wallet" "account" (account_PublicKey scenario.account)
        scenario.data rules.APPROVED) (calls r) /\
  exists wallet account,
    In (EvPreCheck scenario.credentials "account" None
          ruler.ActionSignBeaconAttestation wallet account
          core.ResultSucceeded) (calls r) /\
    "wallet" = wallet_Name wallet /\
    "account" = account_Name account /\
    account_PublicKey scenario.account = account_PublicKey account.
Proof.
  intros r.
  assert (H : In (EvRunRules scenario.credentials
                    ruler.ActionSignBeaconAttestation "wallet" "account"
                    (account_PublicKey scenario.account) scenario.data
                    rules.APPROVED) (calls r)).
  { vm_compute. do 2 right; left; reflexivity. }
  split; [exact H|].
  destruct (rules_asked_about_resolved_account scenario.approving
              (Some scenario.credentials) "account" None
              (Some scenario.data) scenario.initial _ _ _ _ _ _ _ H)
    as (_ & _ & _ & _ & Hres).
  exact Hres.
Defined.

Lemma signer_asked_only_behind_gates_witness :
  let r :=
    SignBeaconAttestation scenario.approving (Some scenario.credentials)
      "account" None (Some scenario.data) scenario.initial in
  In (EvSignRoot scenario.account (Some scenario.signing_root)
        scenario.signature None) (calls r) /\
  exists c wallet d v att dom digest,
    In (EvPreCheck c "account" None ruler.ActionSignBeaconAttestation
          wallet scenario.account core.ResultSucceeded) (calls r) /\
    In (EvRunRules c ruler.ActionSignBeaconAttestation (wallet_Name wallet)
          (account_Name scenario.account)
          (account_PublicKey scenario.account) d v) (calls r) /\
    v <> rules.DENIED /\ v <> rules.FAILED /\
    In (EvGenerateSigningRoot att dom digest None) (calls r) /\
    Some scenario.signing_root = Some digest.
Proof.
  intros r.
  assert (H : In (EvSignRoot scenario.account (Some scenario.signing_root)
                    scenario.signature None) (calls r)).
  { vm_compute. do 4 right; left; reflexivity. }
  split; [exact H|].
  exact (signer_asked_only_behind_gates scenario.approving
           (Some scenario.credentials) "account" None
           (Some scenario.data) scenario.initial _ _ _ _ H).
Defined.

Lemma succeeded_means_signed_witness :
  let r :=
    SignBeaconAttestation scenario.approving (Some scenario.credentials)
      "account" None (Some scenario.data) scenario.initial in
  outcome r = core.ResultSucceeded /\
  exists account root,
    In (EvSignRoot account root (signature_of r) None) (calls r).
Proof.
  intros r.
  assert (H : outcome r = core.ResultSucceeded) by reflexivity.
  split; [exact H|].
  destruct (succeeded_means_signed scenario.approving
              (Some scenario.credentials) "account" None
              (Some scenario.data) scenario.initial H)
    as (_ & _ & Hsigned).
  exact Hsigned.
Defined.

Lemma denied_has_a_cause_witness :
  let s := scenario.stub core.ResultSucceeded rules.DENIED None None in
  let r :=
    SignBeaconAttestation s (Some scenario.credentials) "account" None
      (Some scenario.data) scenario.initial in
  outcome r = core.ResultDenied /\
  filter is_GenerateSigningRoot (calls r) = [] /\
  filter is_SignRoot (calls r) = [].
Proof.
  intros s r.
  assert (H : outcome r = core.ResultDenied) by reflexivity.
  split; [exact H|].
  destruct (denied_has_a_cause s (Some scenario.credentials) "account" None
              (Some scenario.data) scenario.initial H)
    as (_ & Hroot & Hsign & _).
  split; [exact Hroot|exact Hsign].
Defined.

Lemma failed_has_a_cause_witness :
  let s :=
    scenario.stub core.ResultSucceeded rules.APPROVED
      (Some "short root") None in
  let r :=
    SignBeaconAttestation s (Some scenario.credentials) "account" None
      (Some scenario.data) scenario.initial in
  outcome r = core.ResultFailed /\
  (Some scenario.credentials = None \/
   (exists c n k a wallet account,
       In (EvPreCheck c n k a wallet account core.ResultFailed) (calls r)) \/
   (exists c a wn an k d,
       In (EvRunRules c a wn an k d rules.FAILED) (calls r)) \/
   (exists att dom root e,
       In (EvGenerateSigningRoot att dom root (Some e)) (calls r)) \/
   (exists account root sig e,
       In (EvSignRoot account root sig (Some e)) (calls r))).
Proof.
  intros s r.
  assert (H : outcome r = core.ResultFailed) by reflexivity.
  split; [exact H|].
  exact (failed_has_a_cause s (Some scenario.credentials) "account" None
           (Some scenario.data) scenario.initial H).
Defined.

Lemma log_level_tells_outcome_witness :
  let r :=
    SignBeaconAttestation scenario.approving (Some scenario.credentials)
      "account" None (Some scenario.data_no_target_root)
      scenario.initial in
  In (EvLog Warn "Request missing target root") (calls r) /\
  outcome r = core.ResultDenied.
Proof.
  intros r.
  assert (H : In (EvLog Warn "Request missing target root") (calls r)).
  { vm_compute. right; left; reflexivity. }
  split; [exact H|].
  apply (proj2 (log_level_tells_outcome scenario.approving
                  (Some scenario.credentials) "account" None
                  (Some scenario.data_no_target_root) scenario.initial
                  _ _ H)).
  left; reflexivity.
Defined.

Lemma approved_request_is_signed_witness :
  let r :=
    SignBeaconAttestation scenario.approving (Some scenario.credentials)
      "account" None (Some scenario.data) scenario.initial in
  returned r = (core.ResultSucceeded, scenario.signature) /\
  world_after r = 10%nat /\
  metrics_after r = [(7, "attestation", core.ResultSucceeded)].
Proof.
  apply (approved_request_is_signed scenario.approving scenario.credentials
           "account" None scenario.data
           {| rules.Epoch := 10; rules.Root := Some (repeat xaa 32) |}
           {| rules.Epoch := 11; rules.Root := Some (repeat xbb 32) |}
           scenario.initial scenario.wallet scenario.account
           8%nat 9%nat 10%nat scenario.signing_root scenario.signature);
    first [ reflexivity | discriminate ].
Defined.

Lemma rules_effects_are_kept_witness :
  let s := scenario.stub core.ResultSucceeded rules.FAILED None None in
  let r :=
    SignBeaconAttestation s (Some scenario.credentials) "account" None
      (Some scenario.data) scenario.initial in
  filter is_SignRoot (calls r) = [] /\
  outcome r <> core.ResultSucceeded /\
  world_after r = 9%nat.
Proof.
  intros s r.
  assert (H : filter is_SignRoot (calls r) = []) by reflexivity.
  split; [exact H|].
  apply (rules_effects_are_kept s scenario.credentials "account" None
           scenario.data
           {| rules.Epoch := 10; rules.Root := Some (repeat xaa 32) |}
           {| rules.Epoch := 11; rules.Root := Some (repeat xbb 32) |}
           scenario.initial scenario.wallet scenario.account
           8%nat 9%nat rules.FAILED);
    first [ exact H | reflexivity | discriminate ].
Defined.

Lemma warning_names_missing_field_witness :
  let r :=
    SignBeaconAttestation scenario.approving (Some scenario.credentials)
      "account" None (Some scenario.data_no_target_root)
      scenario.initial in
  let msg := "Request missing target root" in
  let data := Some scenario.data_no_target_root in
  In (EvLog Warn msg) (calls r) /\
  ((msg = "Request missing data" /\ data = None) \/
   exists d,
     data = Some d /\
     ((msg = "Request missing beacon block root" /\
       rules.BeaconBlockRoot d = None) \/
      (msg = "Request missing domain" /\ rules.Domain d = None) \/
      (msg = "Request missing source" /\ rules.Source d = None) \/
      (msg = "Request missing source root" /\
       exists source, rules.Source d = Some source /\
                      rules.Root source = None) \/
      (msg = "Request missing target" /\ rules.Target d = None) \/
      (msg = "Request missing target root" /\
       exists target, rules.Target d = Some target /\
                      rules.Root target = None))).
Proof.
  intros r msg data.
  assert (H : In (EvLog Warn msg) (calls r)).
  { vm_compute. right; left; reflexivity. }
  split; [exact H|].
  exact (warning_names_missing_field scenario.approving
           (Some scenario.credentials) "account" None data
           scenario.initial msg H).
Defined.

(** ** Where the specification's wording and the operation part *)

(** An allocated beacon block root of length zero is not non-empty, yet
    the request is not denied: the rules are asked and the call succeeds. *)
Lemma empty_root_is_not_denied :
  let r :=
    SignBeaconAttestation scenario.approving (Some scenario.credentials)
      "account" None (Some scenario.data_empty_block_root)
      scenario.initial in
  lacking (Some scenario.data_empty_block_root) /\
  returned r <> (core.ResultDenied, None) /\
  filter is_RunRules (calls r) <> [].
Proof.
  intros r. split; [|split].
  - cbn. right; left. reflexivity.
  - vm_compute. discriminate.
  - vm_compute. discriminate.
Qed.

(** A signer that reports no error and hands back the nil slice: the call
    returns SUCCEEDED with that nil slice. *)
Lemma succeeded_with_nil_signature :
  let r :=
    SignBeaconAttestation (scenario.signing_with None)
      (Some scenario.credentials) "account" None (Some scenario.data)
      scenario.initial in
  outcome r = core.ResultSucceeded /\
  signature_of r = None /\
  ~ non_empty (signature_of r).
Proof.
  intros r. split; [reflexivity|]. split; [reflexivity|].
  intros (x & xs & H). discriminate H.
Qed.

(** The same approved request behind a monitor that records and behind one
    that panics: the first call returns SUCCEEDED with the signature, the
    second returns nothing. *)
Lemma panicking_monitor_aborts_call :
  let r1 :=
    SignBeaconAttestation (monitored scenario.approving scenario.recording)
      (Some scenario.credentials) "account" None (Some scenario.data)
      (7%nat, Some []) in
  let r2 :=
    SignBeaconAttestation (monitored scenario.approving scenario.panicking)
      (Some scenario.credentials) "account" None (Some scenario.data)
      (7%nat, Some tt) in
  call_result r1 = Some (core.ResultSucceeded, scenario.signature) /\
  call_result r2 = None /\
  call_result r1 <> call_result r2.
Proof.
  intros r1 r2. split; [reflexivity|]. split; [reflexivity|].
  vm_compute. discriminate.
Qed.

Lemma monitor_reaches_caller_only_by_panic_witness :
  let r1 :=
    SignBeaconAttestation (monitored scenario.approving scenario.recording)
      (Some scenario.credentials) "account" None (Some scenario.data)
      (7%nat, Some []) in
  let r2 :=
    SignBeaconAttestation
      (monitored scenario.approving
         (fun started request result n =>
            Some (scenario.counting_monitor started request result n)))
      (Some scenario.credentials) "account" None (Some scenario.data)
      (7%nat, Some 0%nat) in
  call_result r1 = Some (returned r1) /\
  call_result r2 = Some (returned r2) /\
  returned r1 = returned r2.
Proof.
  intros r1 r2.
  assert (H1 : call_result r1 = Some (returned r1)) by reflexivity.
  assert (H2 : call_result r2 = Some (returned r2)) by reflexivity.
  split; [exact H1|]. split; [exact H2|].
  exact (proj1 (monitor_reaches_caller_only_by_panic scenario.approving
                  scenario.recording
                  (fun started request result n =>
                     Some (scenario.counting_monitor started request
                             result n))
                  (Some scenario.credentials) "account" None
                  (Some scenario.data) 7%nat [] 0%nat) _ _ H1 H2).
Defined.
